(** * FilterClient (src/api/filter.js): request descriptors for the Jira
    filter endpoints.

    The module is a JavaScript constructor that hangs eight public methods
    and one private helper on [this].  Every method assembles an options
    object and hands it to the injected [jiraClient].  The embedding below
    follows the source statement by statement: JavaScript values are an
    inductive type, objects are finite maps from property names to values,
    thrown exceptions are the left summand of a sum, and the calls received
    by the transport collaborator are kept in a log carried by the client. *)

From Stdlib Require Import Ascii.
From stdpp Require Import gmap strings list fin_maps pretty.

Set Warnings "-register-all".

(** ** JavaScript values *)

(** The values an options object can carry.  [JNum] holds the integer-valued
    numbers of the safe range, for which [Number::toString] is the decimal
    numeral; fractions, infinities and NaN are outside the model.  Function
    values are outside the model too, so no object has a callable
    [forEach] of its own. *)
Inductive JsVal : Type :=
  | JUndefined
  | JNull
  | JBool (b : bool)
  | JNum (n : Z)
  | JStr (s : string)
  | JArr (l : list JsVal)
  | JObj (m : gmap string JsVal).

(** What a thrown exception carries; the module can only raise the
    [TypeError] of calling a property that is not a function. *)
Inductive JsError : Type := TypeError.

Definition Result (A : Type) : Type := (JsError + A)%type.

Definition ret {A} (a : A) : Result A := inr a.
Definition throw {A} (e : JsError) : Result A := inl e.
Definition bind {A B} (m : Result A) (k : A → Result B) : Result B :=
  match m with
  | inl e => inl e
  | inr a => k a
  end.

Notation "x <- m ;; k" := (bind m (fun x => k))
  (at level 100, m at next level, right associativity).

(** ToBoolean: what [if (v)] and [!v] test. *)
Definition truthy (v : JsVal) : bool :=
  match v with
  | JUndefined | JNull => false
  | JBool b => b
  | JNum n => negb (n =? 0)%Z
  | JStr s => negb (String.eqb s "")
  | JArr _ | JObj _ => true
  end.

(** ToString.  [Array.prototype.toString] joins the elements with [","]
    and prints [undefined] and [null] elements as the empty string; a plain
    object prints as ["[object Object]"]. *)
Fixpoint toString (v : JsVal) : string :=
  match v with
  | JUndefined => "undefined"
  | JNull => "null"
  | JBool true => "true"
  | JBool false => "false"
  | JNum n => pretty n
  | JStr s => s
  | JArr l =>
      String.concat ","
        (map (fun x => match x with
                       | JUndefined | JNull => ""
                       | _ => toString x
                       end) l)
  | JObj _ => "[object Object]"
  end.

(** [a + b] when one operand is a string: both operands go through
    ToPrimitive and ToString and the results are concatenated.  Every [+]
    of the module has a string on one side. *)
Definition jsAdd (a b : JsVal) : JsVal := JStr (toString a +:+ toString b).

(** [o.k]: a property that is not there reads as [undefined]. *)
Definition get (o : gmap string JsVal) (k : string) : JsVal :=
  default JUndefined (o !! k).

(** [String.prototype.slice(start, end)]: negative indices count from the
    end, both are clamped to the string, an empty span gives [""]. *)
Definition slice (s : string) (start stop : Z) : string :=
  let len := Z.of_nat (String.length s) in
  let from := if (start <? 0)%Z then Z.max (len + start) 0 else Z.min start len in
  let to := if (stop <? 0)%Z then Z.max (len + stop) 0 else Z.min stop len in
  String.substring (Z.to_nat from) (Z.to_nat (Z.max (to - from) 0)) s.

(** [v.forEach(f)] with the state the callback updates passed along: an
    array is walked left to right; on any other value [v.forEach] is
    [undefined] and calling it throws. *)
Definition forEach {S} (v : JsVal) (f : JsVal → S → S) (st : S) : Result S :=
  match v with
  | JArr l => ret (foldl (fun acc x => f x acc) st l)
  | _ => throw TypeError
  end.

(** [s.split(",")], the operation the round-trip property reads the query
    parameter back with: [""] splits into one empty segment. *)
Fixpoint split_on (c : ascii) (s : string) : list string :=
  match s with
  | EmptyString => [EmptyString]
  | String a s' =>
      if Ascii.eqb a c then EmptyString :: split_on c s'
      else match split_on c s' with
           | [] => [String a EmptyString]
           | seg :: rest => String a seg :: rest
           end
  end.

Definition comma : ascii := ","%char.

Fixpoint contains (c : ascii) (s : string) : bool :=
  match s with
  | EmptyString => false
  | String a s' => Ascii.eqb a c || contains c s'
  end.

Definition first_char (s : string) : option ascii :=
  match s with
  | EmptyString => None
  | String a _ => Some a
  end.

Fixpoint last_char (s : string) : option ascii :=
  match s with
  | EmptyString => None
  | String a EmptyString => Some a
  | String _ s' => last_char s'
  end.

Definition ends_with (s suffix : string) : Prop := ∃ pre, s = pre +:+ suffix.

(** ** The request descriptor and the collaborator *)

(** The options object handed to [makeRequest].  [qs] and [body] are
    [None] when the object literal has no such key. *)
Record Descriptor : Type := mkDescriptor {
  uri : string;
  method : string;
  json : bool;
  followAllRedirects : bool;
  qs : option (gmap string JsVal);
  body : option JsVal
}.

Section FilterClient.

Context {Callback : Type}.

(** One call of [jiraClient.makeRequest(options, callback, successMessage)];
    a call with two arguments leaves [successMessage] undefined. *)
Record Call : Type := mkCall {
  options : Descriptor;
  callback : Callback;
  successMessage : option string
}.

(** The injected collaborator.  Its code is not part of this module:
    [buildURL] is taken as a parameter, and of [makeRequest] only the calls
    it receives are observed, in order. *)
Record JiraClient : Type := mkJiraClient {
  buildURL : string → string;
  requests : list Call
}.

Definition makeRequest (jc : JiraClient) (o : Descriptor) (cb : Callback)
    (msg : option string) : JiraClient :=
  {| buildURL := buildURL jc;
     requests := requests jc ++ [mkCall o cb msg] |}.

Record FilterClient : Type := mkFilterClient { jiraClient : JiraClient }.

(** ** buildRequestOptions *)

(** The body of the two list loops: [qs[key] += item + ','] on the query
    string object. *)
Definition appendItem (key : string) (item : JsVal)
    (q : gmap string JsVal) : gmap string JsVal :=
  <[key := jsAdd (get q key) (jsAdd item (JStr ","))]> q.

(** [if (opts[key]) { qs[key] = ''; opts[key].forEach(...);
    qs[key] = qs[key].slice(0, -1); }] *)
Definition joinTrimmed (opts : gmap string JsVal) (key : string)
    (q : gmap string JsVal) : Result (gmap string JsVal) :=
  if truthy (get opts key) then
    q1 <- forEach (get opts key) (appendItem key) (<[key := JStr ""]> q) ;;
    ret (<[key := JStr (slice (toString (get q1 key)) 0 (-1))]> q1)
  else ret q.

(** [opts] is the object the caller passes; [body] is [undefined] at the
    call sites that pass three arguments; [qs] is [None] when the fifth
    argument is missing, which is the case at every call site of the
    module. *)
Definition buildRequestOptions (this : FilterClient) (opts : gmap string JsVal)
    (path method : string) (body : JsVal) (qs : option (gmap string JsVal))
    : Result Descriptor :=
  let basePath := jsAdd (JStr "/filter/") (get opts "filterId") in
  let qs := default ∅ qs in
  let body := if truthy body then body else JObj ∅ in
  qs <- joinTrimmed opts "fields" qs ;;
  qs <- joinTrimmed opts "expand" qs ;;
  ret {| uri := buildURL (jiraClient this) (toString (jsAdd basePath (JStr path)));
         method := method;
         body := Some body;
         qs := Some qs;
         followAllRedirects := true;
         json := true |}.

(** [this.jiraClient.makeRequest(options, callback, msg)] *)
Definition send (this : FilterClient) (o : Descriptor) (cb : Callback)
    (msg : option string) : FilterClient :=
  {| jiraClient := makeRequest (jiraClient this) o cb msg |}.

(** ** The public operations *)

Definition createFilter (this : FilterClient) (opts : gmap string JsVal)
    (cb : Callback) : Result FilterClient :=
  let q : gmap string JsVal := ∅ in
  q <- (if truthy (get opts "expand") then
          forEach (get opts "expand") (appendItem "expand")
            (<["expand" := JStr ""]> q)
        else ret q) ;;
  ret (send this
         {| uri := buildURL (jiraClient this) "/filter";
            method := "POST";
            json := true;
            followAllRedirects := true;
            qs := Some q;
            body := Some (get opts "filter") |}
         cb None).

Definition getFilter (this : FilterClient) (opts : gmap string JsVal)
    (cb : Callback) : Result FilterClient :=
  o <- buildRequestOptions this opts "" "GET" JUndefined None ;;
  ret (send this o cb None).

Definition updateFilter (this : FilterClient) (opts : gmap string JsVal)
    (cb : Callback) : Result FilterClient :=
  o <- buildRequestOptions this opts "" "PUT" (get opts "filter") None ;;
  ret (send this o cb None).

Definition getFilterColumns (this : FilterClient) (opts : gmap string JsVal)
    (cb : Callback) : Result FilterClient :=
  o <- buildRequestOptions this opts "/columns" "GET" JUndefined None ;;
  ret (send this o cb None).

Definition setFilterColumns (this : FilterClient) (opts : gmap string JsVal)
    (cb : Callback) : Result FilterClient :=
  let body := JObj {[ "columns" := get opts "columns" ]} in
  o <- buildRequestOptions this opts "/columns" "PUT" body None ;;
  ret (send this o cb (Some "Columns Updated")).

Definition resetFilterColumns (this : FilterClient) (opts : gmap string JsVal)
    (cb : Callback) : Result FilterClient :=
  o <- buildRequestOptions this opts "/columns" "DELETE" JUndefined None ;;
  ret (send this o cb (Some "Columns Reset")).

(** Spelt as in the source. *)
Definition getDefaultShareScore (this : FilterClient) (opts : gmap string JsVal)
    (cb : Callback) : Result FilterClient :=
  ret (send this
         {| uri := buildURL (jiraClient this) "/filter/defaultShareScope";
            method := "GET";
            json := true;
            followAllRedirects := true;
            qs := None;
            body := None |}
         cb None).

Definition setDefaultShareScope (this : FilterClient) (opts : gmap string JsVal)
    (cb : Callback) : Result FilterClient :=
  ret (send this
         {| uri := buildURL (jiraClient this) "/filter/defaultShareScope";
            method := "PUT";
            json := true;
            followAllRedirects := true;
            qs := None;
            body := Some (JObj {[ "scope" := get opts "scope" ]}) |}
         cb None).

(** ** The object the constructor builds *)

Definition Operation : Type :=
  FilterClient → gmap string JsVal → Callback → Result FilterClient.

(** The function-valued properties the constructor assigns on [this], under
    the names it assigns them, in source order.  [buildRequestOptions] is
    the one marked private and is kept apart. *)
Definition publicOperations : list (string * Operation) :=
  [ ("createFilter", createFilter);
    ("getFilter", getFilter);
    ("updateFilter", updateFilter);
    ("getFilterColumns", getFilterColumns);
    ("setFilterColumns", setFilterColumns);
    ("resetFilterColumns", resetFilterColumns);
    ("getDefaultShareScore", getDefaultShareScore);
    ("setDefaultShareScope", setDefaultShareScope) ].

(** [client[name]] for a method name: [None] is the [undefined] a missing
    property reads as, and calling it throws. *)
Fixpoint lookupOperation (name : string) (ops : list (string * Operation))
    : option Operation :=
  match ops with
  | [] => None
  | (n, op) :: rest => if String.eqb n name then Some op else lookupOperation name rest
  end.

(** The operations that build their descriptor with [buildRequestOptions]. *)
Definition routedOperations : list (string * Operation) :=
  [ ("getFilter", getFilter);
    ("updateFilter", updateFilter);
    ("getFilterColumns", getFilterColumns);
    ("setFilterColumns", setFilterColumns);
    ("resetFilterColumns", resetFilterColumns) ].

(** The path suffix each routed operation passes to the helper. *)
Definition pathSuffix (name : string) : string :=
  if String.eqb name "getFilter" || String.eqb name "updateFilter" then ""
  else "/columns".

(** A list option a loop can consume: falsy (the branch is skipped) or an
    array. *)
Definition listOption (v : JsVal) : bool :=
  match v with
  | JArr _ => true
  | _ => negb (truthy v)
  end.

End FilterClient.

Arguments Call : clear implicits.
Arguments JiraClient : clear implicits.
Arguments FilterClient : clear implicits.
Arguments Operation : clear implicits.

(** ** Reference notions the properties are stated with *)

(** The list written with [","] between the items: what a list-valued query
    parameter is meant to hold. *)
Definition joined (l : list JsVal) : string :=
  String.concat "," (toString <$> l).

(** The list written with [","] after every item: what the loops build
    before anything is trimmed. *)
Fixpoint withTrailing (l : list JsVal) : string :=
  match l with
  | [] => ""
  | x :: rest => toString x +:+ "," +:+ withTrailing rest
  end.

(** The query string object after the helper has dealt with one list
    option that it can consume. *)
Definition listInto (opts : gmap string JsVal) (key : string)
    (q : gmap string JsVal) : gmap string JsVal :=
  match get opts key with
  | JArr l => <[key := JStr (joined l)]> q
  | _ => q
  end.

Definition noComma (s : string) : Prop := contains comma s = false.

(** A collaborator to run the operations against: [buildURL] prefixes the
    path with the address of the REST root, and nothing has been sent. *)
Definition exampleJira : JiraClient unit :=
  {| buildURL := fun p => "https://jira.example.com/rest/api/2" +:+ p;
     requests := [] |}.

Definition exampleClient : FilterClient unit :=
  {| jiraClient := exampleJira |}.

(** ** What each operation reads *)

(** The properties of [opts] an operation reads, by the name the operation
    is assigned under: the ones its own body reads and, for the operations
    that go through the helper, the three the helper reads. *)
Definition optionsRead (name : string) : list string :=
  if String.eqb name "createFilter" then ["filter"; "expand"]
  else if String.eqb name "updateFilter" then
    ["filterId"; "fields"; "expand"; "filter"]
  else if String.eqb name "setFilterColumns" then
    ["filterId"; "fields"; "expand"; "columns"]
  else if String.eqb name "getDefaultShareScore" then []
  else if String.eqb name "setDefaultShareScope" then ["scope"]
  else ["filterId"; "fields"; "expand"].

(** Among them, the ones the operation calls [forEach] on when they are
    truthy. *)
Definition listOptionsRead (name : string) : list string :=
  if String.eqb name "createFilter" then ["expand"]
  else if String.eqb name "getDefaultShareScore"
          || String.eqb name "setDefaultShareScope" then []
  else ["fields"; "expand"].


(** [client.op1(opts1, cb1); client.op2(opts2, cb2); ...]: operations
    called one after the other on the same client; an exception ends the
    sequence. *)
Fixpoint callAll {Callback : Type}
    (calls : list (Operation Callback * gmap string JsVal * Callback))
    (this : FilterClient Callback) : Result (FilterClient Callback) :=
  match calls with
  | [] => ret this
  | (op, opts, cb) :: rest => this' <- op this opts cb ;; callAll rest this'
  end.

(** ** Strings *)

#[local] Arguments String.append : simpl nomatch.

Lemma append_assoc (s t u : string) : (s +:+ t) +:+ u = s +:+ (t +:+ u).
Proof. induction s as [|a s IH]; simpl; [done | by rewrite IH]. Qed.

Lemma append_empty_r (s : string) : s +:+ "" = s.
Proof. induction s as [|a s IH]; simpl; [done | by rewrite IH]. Qed.

Lemma length_append (s t : string) :
  String.length (s +:+ t) = String.length s + String.length t.
Proof. induction s as [|a s IH]; simpl; [done | by rewrite IH]. Qed.

Lemma substring_whole_prefix (s t : string) :
  String.substring 0 (String.length s) (s +:+ t) = s.
Proof.
  induction s as [|a s IH]; simpl.
  - by destruct t.
  - by rewrite IH.
Qed.

(** [slice(0, -1)] takes the last character off. *)
Lemma slice_drop_last (s : string) (c : ascii) :
  slice (s +:+ String c "") 0 (-1) = s.
Proof.
  unfold slice. rewrite length_append. simpl String.length.
  change (0 <? 0)%Z with false. change (-1 <? 0)%Z with true. cbv iota.
  replace (Z.min 0 _) with 0%Z by lia.
  replace (Z.max (Z.max _ 0 - 0) 0) with (Z.of_nat (String.length s)) by lia.
  rewrite Nat2Z.id. apply substring_whole_prefix.
Qed.

Lemma slice_empty : slice "" 0 (-1) = "".
Proof. reflexivity. Qed.

Lemma withTrailing_joined (l : list JsVal) :
  l ≠ [] → withTrailing l = joined l +:+ ",".
Proof.
  induction l as [|x [|y r] IH]; intros Hne; [done | |].
  - reflexivity.
  - unfold joined in *. simpl fmap. simpl String.concat.
    change (withTrailing (x :: y :: r))
      with (toString x +:+ "," +:+ withTrailing (y :: r)).
    rewrite IH by done. simpl fmap.
    by rewrite !append_assoc.
Qed.

Lemma slice_withTrailing (l : list JsVal) :
  slice (withTrailing l) 0 (-1) = joined l.
Proof.
  destruct l as [|x r]; [done |].
  rewrite withTrailing_joined by done. apply slice_drop_last.
Qed.

Lemma joined_strings (L : list string) :
  joined (JStr <$> L) = String.concat "," L.
Proof.
  unfold joined. f_equal.
  induction L as [|s L IH]; [done |].
  rewrite !fmap_cons. by rewrite IH.
Qed.

Lemma last_char_append (s : string) (c : ascii) :
  last_char (s +:+ String c "") = Some c.
Proof.
  induction s as [|a s IH]; simpl; [done |].
  destruct (s +:+ String c "") eqn:E; [by destruct s | done].
Qed.

(** ** Splitting *)

Lemma split_on_nonempty (c : ascii) (s : string) : split_on c s ≠ [].
Proof.
  destruct s as [|a s]; simpl; [done |].
  destruct (Ascii.eqb a c); [done |]. by destruct (split_on c s).
Qed.

Lemma split_on_no_sep (c : ascii) (s : string) :
  contains c s = false → split_on c s = [s].
Proof.
  induction s as [|a s IH]; simpl; [done |].
  intros [Ha Hs]%orb_false_iff. rewrite Ha. by rewrite IH.
Qed.

Lemma split_on_append (c : ascii) (s t : string) :
  contains c s = false → split_on c (s +:+ String c t) = s :: split_on c t.
Proof.
  induction s as [|a s IH]; simpl.
  - intros _. by rewrite Ascii.eqb_refl.
  - intros [Ha Hs]%orb_false_iff. rewrite Ha. by rewrite IH.
Qed.

Lemma split_on_concat (c : ascii) (L : list string) :
  L ≠ [] → Forall (fun s => contains c s = false) L →
  split_on c (String.concat (String c "") L) = L.
Proof.
  induction L as [|x [|y r] IH]; intros Hne HL; [done | |].
  - simpl. apply split_on_no_sep. by inversion HL.
  - inversion HL as [|? ? Hx Hr]; subst.
    change (String.concat (String c "") (x :: y :: r))
      with (x +:+ String c (String.concat (String c "") (y :: r))).
    rewrite split_on_append by done. f_equal. by apply IH.
Qed.

Lemma first_char_split (c : ascii) (s : string) :
  first_char s = Some c → head (split_on c s) = Some "".
Proof.
  destruct s as [|a s]; simpl; [done |].
  intros [= ->]. by rewrite Ascii.eqb_refl.
Qed.

Lemma last_char_split_length (c : ascii) (s : string) :
  last_char s = Some c →
  last (split_on c s) = Some "" ∧ 2 ≤ length (split_on c s).
Proof.
  induction s as [|a s IH]; [done |].
  destruct s as [|b s].
  - simpl. intros [= ->]. rewrite Ascii.eqb_refl. simpl. split; [done | lia].
  - intros H.
    destruct (IH H) as [Hlast Hlen]. clear IH.
    change (split_on c (String a (String b s)))
      with (if Ascii.eqb a c then "" :: split_on c (String b s)
            else match split_on c (String b s) with
                 | [] => [String a ""]
                 | seg :: rest => String a seg :: rest
                 end).
    destruct (split_on c (String b s)) as [|seg [|seg' rest]];
      [simpl in Hlen; lia | simpl in Hlen; lia |].
    destruct (Ascii.eqb a c).
    + split; [exact Hlast | simpl; lia].
    + split; [exact Hlast | simpl; lia].
Qed.

Lemma last_char_split (c : ascii) (s : string) :
  last_char s = Some c → last (split_on c s) = Some "".
Proof. intros H. by apply last_char_split_length. Qed.

(** ** The list loops *)

Lemma get_insert_eq (q : gmap string JsVal) (k : string) (v : JsVal) :
  get (<[k := v]> q) k = v.
Proof. unfold get. by rewrite lookup_insert_eq. Qed.

Lemma get_insert_ne (q : gmap string JsVal) (k k' : string) (v : JsVal) :
  k ≠ k' → get (<[k := v]> q) k' = get q k'.
Proof. intros Hne. unfold get. by rewrite lookup_insert_ne. Qed.

(** Walking the array appends every item, each followed by a comma, to the
    string the key held when the loop started. *)
Lemma foldl_appendItem (key : string) (l : list JsVal)
    (q : gmap string JsVal) (s : string) :
  foldl (fun acc x => appendItem key x acc) (<[key := JStr s]> q) l
  = <[key := JStr (s +:+ withTrailing l)]> q.
Proof.
  revert s. induction l as [|x l IH]; intros s.
  - simpl. by rewrite append_empty_r.
  - change (foldl (fun acc x => appendItem key x acc) (<[key := JStr s]> q) (x :: l))
      with (foldl (fun acc x => appendItem key x acc)
              (appendItem key x (<[key := JStr s]> q)) l).
    unfold appendItem at 2. rewrite get_insert_eq, insert_insert_eq.
    unfold jsAdd. simpl toString. rewrite IH. simpl withTrailing.
    by rewrite !append_assoc.
Qed.

Lemma joinTrimmed_array (opts : gmap string JsVal) (key : string)
    (q : gmap string JsVal) (l : list JsVal) :
  get opts key = JArr l →
  joinTrimmed opts key q = inr (<[key := JStr (joined l)]> q).
Proof.
  intros Hl. unfold joinTrimmed. rewrite Hl. simpl.
  rewrite foldl_appendItem. rewrite get_insert_eq, insert_insert_eq.
  simpl toString. by rewrite slice_withTrailing.
Qed.

Lemma joinTrimmed_falsy (opts : gmap string JsVal) (key : string)
    (q : gmap string JsVal) :
  truthy (get opts key) = false → joinTrimmed opts key q = inr q.
Proof. intros Hf. unfold joinTrimmed. by rewrite Hf. Qed.

Lemma listOption_cases (v : JsVal) :
  listOption v = true → (∃ l, v = JArr l) ∨ truthy v = false.
Proof.
  destruct v; simpl; intros H; eauto; right; by apply negb_true_iff in H.
Qed.

Lemma listInto_falsy (opts : gmap string JsVal) (key : string)
    (q : gmap string JsVal) :
  truthy (get opts key) = false → listInto opts key q = q.
Proof. unfold listInto. by destruct (get opts key). Qed.

Lemma joinTrimmed_listOption (opts : gmap string JsVal) (key : string)
    (q : gmap string JsVal) :
  listOption (get opts key) = true →
  joinTrimmed opts key q = inr (listInto opts key q).
Proof.
  intros [[l Hl] | Hf]%listOption_cases.
  - rewrite (joinTrimmed_array _ _ _ l) by done. unfold listInto. by rewrite Hl.
  - rewrite joinTrimmed_falsy by done. by rewrite listInto_falsy.
Qed.

(** A truthy list option that is not an array makes the helper throw. *)
Lemma joinTrimmed_throws (opts : gmap string JsVal) (key : string)
    (q : gmap string JsVal) :
  listOption (get opts key) = false → joinTrimmed opts key q = inl TypeError.
Proof.
  unfold joinTrimmed. destruct (get opts key) as [| |b|n|s|l|m]; simpl; try done.
  - by destruct b.
  - by destruct (n =? 0)%Z.
  - by destruct (String.eqb s "").
Qed.

Lemma listInto_frame (opts : gmap string JsVal) (key k : string)
    (q : gmap string JsVal) :
  k ≠ key → listInto opts key q !! k = q !! k.
Proof.
  intros Hne. unfold listInto.
  destruct (get opts key); try done. by rewrite lookup_insert_ne.
Qed.

Lemma listInto_array (opts : gmap string JsVal) (key : string)
    (q : gmap string JsVal) (l : list JsVal) :
  get opts key = JArr l →
  listInto opts key q !! key = Some (JStr (joined l)).
Proof. intros Hl. unfold listInto. rewrite Hl. apply lookup_insert_eq. Qed.

Section Operations.

Context {Callback : Type}.
Implicit Types (this : FilterClient Callback) (opts : gmap string JsVal).
Implicit Types (cb : Callback).

(** What the helper returns whenever it returns. *)
Lemma buildRequestOptions_returns this opts (path method : string)
    (body : JsVal) (qs0 : option (gmap string JsVal)) :
  listOption (get opts "fields") = true →
  listOption (get opts "expand") = true →
  buildRequestOptions this opts path method body qs0
  = inr {| uri := buildURL (jiraClient this)
                    ("/filter/" +:+ toString (get opts "filterId") +:+ path);
           method := method;
           json := true;
           followAllRedirects := true;
           qs := Some (listInto opts "expand"
                         (listInto opts "fields" (default ∅ qs0)));
           body := Some (if truthy body then body else JObj ∅) |}.
Proof.
  intros Hf He. unfold buildRequestOptions.
  rewrite joinTrimmed_listOption by done. simpl bind.
  rewrite joinTrimmed_listOption by done. simpl bind.
  unfold ret, jsAdd. simpl toString. reflexivity.
Qed.

Lemma buildRequestOptions_throws this opts (path method : string)
    (body : JsVal) (qs0 : option (gmap string JsVal)) :
  listOption (get opts "fields") && listOption (get opts "expand") = false →
  buildRequestOptions this opts path method body qs0 = inl TypeError.
Proof.
  intros H. unfold buildRequestOptions.
  destruct (listOption (get opts "fields")) eqn:Hf.
  - rewrite joinTrimmed_listOption by done. simpl bind.
    simpl in H. by rewrite joinTrimmed_throws.
  - by rewrite joinTrimmed_throws.
Qed.

(** What [createFilter] sends whenever it sends. *)
Lemma createFilter_returns this opts cb :
  listOption (get opts "expand") = true →
  createFilter this opts cb
  = inr (send this
           {| uri := buildURL (jiraClient this) "/filter";
              method := "POST";
              json := true;
              followAllRedirects := true;
              qs := Some (match get opts "expand" with
                          | JArr l => {[ "expand" := JStr (withTrailing l) ]}
                          | _ => ∅
                          end);
              body := Some (get opts "filter") |}
           cb None).
Proof.
  intros [[l Hl] | Hf]%listOption_cases; unfold createFilter.
  - rewrite Hl. simpl. rewrite foldl_appendItem. simpl.
    by rewrite insert_empty.
  - rewrite Hf. simpl. by destruct (get opts "expand").
Qed.

Lemma createFilter_throws this opts cb :
  listOption (get opts "expand") = false →
  createFilter this opts cb = inl TypeError.
Proof.
  unfold createFilter.
  destruct (get opts "expand") as [| |b|n|s|l|m]; simpl; try done.
  - by destruct b.
  - by destruct (n =? 0)%Z.
  - by destruct (String.eqb s "").
Qed.

(** Whether an operation throws is decided by the list options alone: an
    operation that returns with some [filterId] in the options returns
    without it as well. *)
Lemma returns_without_filterId this opts cb (v : JsVal)
    (name : string) (op : Operation Callback) :
  (name, op) ∈ publicOperations →
  (∃ r, op this (<["filterId" := v]> opts) cb = inr r) →
  ∃ r, op this opts cb = inr r.
Proof.
  assert (∀ k, k ≠ "filterId" → get (<["filterId" := v]> opts) k = get opts k)
    as Hget by (intros k Hk; by apply get_insert_ne).
  assert (∀ path method body body' msg,
            (∃ r, (o <- buildRequestOptions this (<["filterId" := v]> opts)
                          path method body None ;;
                   ret (send this o cb msg)) = inr r) →
            ∃ r, (o <- buildRequestOptions this opts path method body' None ;;
                  ret (send this o cb msg)) = inr r) as Hrouted.
  { intros path method body body' msg [r Hr].
    destruct (listOption (get opts "fields") && listOption (get opts "expand"))
      eqn:Hlists.
    - apply andb_true_iff in Hlists as [Hf He].
      rewrite buildRequestOptions_returns by done. by eexists.
    - rewrite buildRequestOptions_throws in Hr; [done |].
      by rewrite !Hget. }
  intros Hin Hrun. unfold publicOperations in Hin.
  repeat (apply elem_of_cons in Hin as [[= -> ->] | Hin]);
    try (by apply elem_of_nil in Hin);
    try (by eapply Hrouted);
    try (by eexists).
  destruct Hrun as [r Hr].
  destruct (listOption (get opts "expand")) eqn:He.
  - rewrite createFilter_returns by done. by eexists.
  - rewrite createFilter_throws in Hr; [done |]. by rewrite Hget.
Qed.

Lemma send_requests this (o : Descriptor) cb (msg : option string) :
  requests (jiraClient (send this o cb msg))
  = requests (jiraClient this) ++ [mkCall o cb msg].
Proof. reflexivity. Qed.

(** ** List-valued query parameters *)

(** C1, as amended: for a non-empty list [L] of comma-free strings given
    as [fields] or as [expand], the helper stores under that key a string
    that splits on the comma back into [L]; when moreover no element of [L]
    is the empty string, that string neither starts nor ends with a comma
    and none of its segments is empty. *)
Theorem list_parameter_roundtrip this opts (path method : string)
    (body : JsVal) (qs0 : option (gmap string JsVal))
    (key : string) (L : list string) :
  key = "fields" ∨ key = "expand" →
  L ≠ [] →
  Forall noComma L →
  get opts key = JArr (JStr <$> L) →
  listOption (get opts "fields") = true →
  listOption (get opts "expand") = true →
  ∃ d q s,
    buildRequestOptions this opts path method body qs0 = inr d
    ∧ qs d = Some q
    ∧ q !! key = Some (JStr s)
    ∧ split_on comma s = L
    ∧ (Forall (fun x => x ≠ "") L →
       first_char s ≠ Some comma
       ∧ last_char s ≠ Some comma
       ∧ "" ∉ split_on comma s).
Proof.
  intros Hkey Hne Hcomma Hget Hf He.
  rewrite buildRequestOptions_returns by done.
  assert (split_on comma (joined (JStr <$> L)) = L) as Hsplit.
  { rewrite joined_strings. by apply (split_on_concat comma). }
  eexists _, _, (joined (JStr <$> L)).
  split; [reflexivity |]. split; [reflexivity |]. split.
  { destruct Hkey as [-> | ->].
    - rewrite listInto_frame by done. by apply listInto_array.
    - by apply listInto_array. }
  split; [exact Hsplit |].
  intros Hfull.
  assert ("" ∉ L) as Hnot.
  { intros Hin. rewrite Forall_forall in Hfull. by apply (Hfull "" Hin). }
  split; [| split].
  - intros Hfirst%first_char_split. rewrite Hsplit in Hfirst.
    apply Hnot. destruct L as [|x L']; [done |].
    injection Hfirst as ->. by left.
  - intros Hlast%last_char_split. rewrite Hsplit in Hlast.
    apply Hnot. by apply last_Some_elem_of.
  - by rewrite Hsplit.
Qed.

(** C2: for a non-empty [expand] list the helper stores the items joined
    by commas, the one after the last item taken off, and [createFilter]
    stores that same string followed by a comma. *)
Theorem expand_trailing_comma this opts cb (path method : string)
    (body : JsVal) (qs0 : option (gmap string JsVal)) (l : list JsVal) :
  l ≠ [] →
  get opts "expand" = JArr l →
  listOption (get opts "fields") = true →
  (∃ d q,
     buildRequestOptions this opts path method body qs0 = inr d
     ∧ qs d = Some q
     ∧ q !! "expand" = Some (JStr (String.concat "," (toString <$> l))))
  ∧ (∃ o q,
       createFilter this opts cb = inr (send this o cb None)
       ∧ qs o = Some q
       ∧ q !! "expand"
         = Some (JStr (String.concat "," (toString <$> l) +:+ ","))
       ∧ last_char (String.concat "," (toString <$> l) +:+ ",") = Some comma).
Proof.
  intros Hne Hl Hf.
  assert (listOption (get opts "expand") = true) as He by by rewrite Hl.
  split.
  - rewrite buildRequestOptions_returns by done.
    eexists _, _. split; [reflexivity |]. split; [reflexivity |].
    by apply listInto_array.
  - rewrite createFilter_returns by done.
    eexists _, _. split; [reflexivity |]. split; [reflexivity |].
    rewrite Hl, withTrailing_joined by done. split.
    + apply lookup_singleton_eq.
    + apply (last_char_append _ comma).
Qed.

(** ** The operations, one by one *)

(** C3: the constructor assigns the default-share-scope getter under the
    name [getDefaultShareScore]; no property is called
    [getDefaultShareScope].  The operation itself ignores [opts] and hands
    a GET descriptor for ['/filter/defaultShareScope'] to [makeRequest]. *)
Theorem getDefaultShareScope_misnamed :
  lookupOperation "getDefaultShareScope" (publicOperations (Callback := Callback))
  = None
  ∧ lookupOperation "getDefaultShareScore" publicOperations
    = Some (getDefaultShareScore (Callback := Callback))
  ∧ ∀ this opts cb,
      ∃ o, getDefaultShareScore this opts cb = inr (send this o cb None)
           ∧ uri o = buildURL (jiraClient this) "/filter/defaultShareScope"
           ∧ method o = "GET".
Proof.
  split; [reflexivity |]. split; [reflexivity |].
  intros this opts cb. eexists. split; [reflexivity |]. by split.
Qed.

(** C4: [getFilter({filterId: 42})] sends a descriptor whose URI is
    [buildURL('/filter/42')], hence ends in ['/filter/42'] when [buildURL]
    keeps the path it is given at the end of the address, whose method is
    ['GET'] and whose body is the empty object. *)
Theorem getFilter_42 this cb :
  (∀ p, ends_with (buildURL (jiraClient this) p) p) →
  ∃ o,
    getFilter this {[ "filterId" := JNum 42 ]} cb = inr (send this o cb None)
    ∧ uri o = buildURL (jiraClient this) "/filter/42"
    ∧ ends_with (uri o) "/filter/42"
    ∧ method o = "GET"
    ∧ body o = Some (JObj ∅).
Proof.
  intros Hurl. unfold getFilter.
  rewrite buildRequestOptions_returns by reflexivity.
  eexists. split; [reflexivity |]. simpl.
  split; [reflexivity |]. split; [apply Hurl | by split].
Qed.

(** C5: [setFilterColumns] sends a PUT for ['/filter/{filterId}/columns']
    with body [{columns: opts.columns}] and the message ['Columns Updated'];
    [resetFilterColumns] sends a DELETE for the same path with the message
    ['Columns Reset']. *)
Theorem filter_columns_requests this opts cb :
  listOption (get opts "fields") = true →
  listOption (get opts "expand") = true →
  (∃ o,
     setFilterColumns this opts cb
     = inr (send this o cb (Some "Columns Updated"))
     ∧ uri o = buildURL (jiraClient this)
                 ("/filter/" +:+ toString (get opts "filterId") +:+ "/columns")
     ∧ method o = "PUT"
     ∧ body o = Some (JObj {[ "columns" := get opts "columns" ]}))
  ∧ (∃ o,
       resetFilterColumns this opts cb
       = inr (send this o cb (Some "Columns Reset"))
       ∧ uri o = buildURL (jiraClient this)
                   ("/filter/" +:+ toString (get opts "filterId") +:+ "/columns")
       ∧ method o = "DELETE").
Proof.
  intros Hf He. split.
  - unfold setFilterColumns. rewrite buildRequestOptions_returns by done.
    eexists. split; [reflexivity |]. by repeat split.
  - unfold resetFilterColumns. rewrite buildRequestOptions_returns by done.
    eexists. split; [reflexivity |]. by repeat split.
Qed.

(** C6, as amended: the operations that go through the helper without a
    body ([getFilter], [getFilterColumns], [resetFilterColumns], and
    [updateFilter] when [opts.filter] is falsy) send the empty object as
    body; [createFilter] sends [opts.filter] as it is, so [undefined] when
    it is absent; the descriptor of the default-share-scope getter has no
    body key. *)
Theorem body_when_none_supplied this opts cb :
  listOption (get opts "fields") = true →
  listOption (get opts "expand") = true →
  (∀ name op,
     (name, op) ∈ [ ("getFilter", getFilter (Callback := Callback));
                    ("getFilterColumns", getFilterColumns);
                    ("resetFilterColumns", resetFilterColumns) ] →
     ∃ o msg, op this opts cb = inr (send this o cb msg)
              ∧ body o = Some (JObj ∅))
  ∧ (truthy (get opts "filter") = false →
     ∃ o, updateFilter this opts cb = inr (send this o cb None)
          ∧ body o = Some (JObj ∅))
  ∧ (opts !! "filter" = None →
     ∃ o, createFilter this opts cb = inr (send this o cb None)
          ∧ body o = Some JUndefined)
  ∧ (∃ o, getDefaultShareScore this opts cb = inr (send this o cb None)
          ∧ body o = None).
Proof.
  intros Hf He. split; [| split; [| split]].
  - intros name op Hin.
    repeat (apply elem_of_cons in Hin as [[= -> ->] | Hin]);
      [| | | by apply elem_of_nil in Hin].
    + unfold getFilter. rewrite buildRequestOptions_returns by done.
      by eexists _, _.
    + unfold getFilterColumns. rewrite buildRequestOptions_returns by done.
      by eexists _, _.
    + unfold resetFilterColumns. rewrite buildRequestOptions_returns by done.
      by eexists _, _.
  - intros Hfilter. unfold updateFilter.
    rewrite buildRequestOptions_returns by done.
    eexists. split; [reflexivity |]. simpl. by rewrite Hfilter.
  - intros Hnone. rewrite createFilter_returns by done.
    eexists. split; [reflexivity |]. simpl. unfold get. by rewrite Hnone.
  - eexists. by split.
Qed.

(** C7: whatever a public operation sends has [followAllRedirects] and
    [json] set to [true], and it sends exactly one descriptor; the same
    holds of every descriptor the helper returns. *)
Theorem follow_redirects_json_everywhere :
  (∀ name op this opts cb this',
     (name, op) ∈ publicOperations (Callback := Callback) →
     op this opts cb = inr this' →
     ∃ c, requests (jiraClient this') = requests (jiraClient this) ++ [c]
          ∧ followAllRedirects (options c) = true
          ∧ json (options c) = true)
  ∧ (∀ this opts path method body qs0 d,
       buildRequestOptions this opts path method body qs0 = inr d →
       followAllRedirects d = true ∧ json d = true).
Proof.
  assert (∀ this opts path method body qs0 d,
            buildRequestOptions this opts path method body qs0 = inr d →
            followAllRedirects d = true ∧ json d = true) as Hhelper.
  { intros this opts path method body qs0 d. unfold buildRequestOptions.
    destruct (joinTrimmed opts "fields" _) as [e | q1]; [done |]. simpl bind.
    destruct (joinTrimmed opts "expand" q1) as [e | q2]; [done |]. simpl bind.
    by intros [= <-]. }
  assert (∀ this opts path method body msg cb this',
            (o <- buildRequestOptions this opts path method body None ;;
             ret (send this o cb msg)) = inr this' →
            ∃ c, requests (jiraClient this') = requests (jiraClient this) ++ [c]
                 ∧ followAllRedirects (options c) = true
                 ∧ json (options c) = true) as Hrouted.
  { intros this opts path method body msg cb this' Hrun.
    destruct (buildRequestOptions this opts path method body None)
      as [e | d] eqn:Hd; [done |].
    injection Hrun as <-. eexists. split; [reflexivity |].
    by apply Hhelper in Hd. }
  split; [| exact Hhelper].
  intros name op this opts cb this' Hin Hrun. unfold publicOperations in Hin.
  repeat (apply elem_of_cons in Hin as [[= -> ->] | Hin]);
    try (by apply elem_of_nil in Hin);
    try (by eapply Hrouted).
  - unfold createFilter in Hrun.
    destruct (if truthy (get opts "expand") then _ else _) as [e | q];
      [done |].
    injection Hrun as <-. eexists. by split.
  - injection Hrun as <-. eexists. by split.
  - injection Hrun as <-. eexists. by split.
Qed.

(** C8: a missing [filterId] does not stop any operation.  With list
    options the loops can consume, the operations that go through the
    helper send a descriptor for ['/filter/undefined'] followed by their
    path suffix, and every public operation hands exactly one descriptor to
    [makeRequest]; and whatever the list options, an operation that would
    return had some [filterId] been supplied returns without it too. *)
Theorem missing_filterId_not_rejected this opts cb :
  get opts "filterId" = JUndefined →
  (listOption (get opts "fields") = true →
   listOption (get opts "expand") = true →
   (∀ name op,
      (name, op) ∈ routedOperations (Callback := Callback) →
      ∃ o msg,
        op this opts cb = inr (send this o cb msg)
        ∧ uri o = buildURL (jiraClient this)
                    ("/filter/undefined" +:+ pathSuffix name))
   ∧ (∀ name op,
        (name, op) ∈ publicOperations (Callback := Callback) →
        ∃ this' c,
          op this opts cb = inr this'
          ∧ requests (jiraClient this') = requests (jiraClient this) ++ [c]
          ∧ callback c = cb))
  ∧ (∀ name op v,
       (name, op) ∈ publicOperations (Callback := Callback) →
       (∃ r, op this (<["filterId" := v]> opts) cb = inr r) →
       ∃ r, op this opts cb = inr r).
Proof.
  intros Hid. split; [| intros name op v; apply returns_without_filterId].
  intros Hf He.
  assert (∀ path method body msg,
            (o <- buildRequestOptions this opts path method body None ;;
             ret (send this o cb msg))
            = inr (send this
                     {| uri := buildURL (jiraClient this)
                                 ("/filter/undefined" +:+ path);
                        method := method;
                        json := true;
                        followAllRedirects := true;
                        qs := Some (listInto opts "expand"
                                      (listInto opts "fields" ∅));
                        body := Some (if truthy body then body else JObj ∅) |}
                     cb msg)) as Hrouted.
  { intros path method body msg.
    rewrite buildRequestOptions_returns by done. by rewrite Hid. }
  split.
  - intros name op Hin. unfold routedOperations in Hin.
    repeat (apply elem_of_cons in Hin as [[= -> ->] | Hin]);
      try (by apply elem_of_nil in Hin);
      eexists _, _; (split; [apply Hrouted | reflexivity]).
  - intros name op Hin. unfold publicOperations in Hin.
    repeat (apply elem_of_cons in Hin as [[= -> ->] | Hin]);
      try (by apply elem_of_nil in Hin);
      eexists _, _;
      (split; [first [apply Hrouted | by apply createFilter_returns
                     | reflexivity]
              | by split]).
Qed.

(** C9: an empty array given as [fields] or as [expand] is truthy, so the
    helper stores the key with the empty string as its value, and so does
    [createFilter] for [expand]. *)
Theorem empty_list_gives_empty_string this opts cb (path method : string)
    (body : JsVal) (qs0 : option (gmap string JsVal)) :
  listOption (get opts "fields") = true →
  listOption (get opts "expand") = true →
  (∀ key,
     key = "fields" ∨ key = "expand" →
     get opts key = JArr [] →
     ∃ d q,
       buildRequestOptions this opts path method body qs0 = inr d
       ∧ qs d = Some q
       ∧ q !! key = Some (JStr ""))
  ∧ (get opts "expand" = JArr [] →
     ∃ o q,
       createFilter this opts cb = inr (send this o cb None)
       ∧ qs o = Some q
       ∧ q !! "expand" = Some (JStr "")).
Proof.
  intros Hf He. split.
  - intros key Hkey Hnil.
    rewrite buildRequestOptions_returns by done.
    eexists _, _. split; [reflexivity |]. split; [reflexivity |].
    destruct Hkey as [-> | ->].
    + rewrite listInto_frame by done. by rewrite (listInto_array _ _ _ []).
    + by rewrite (listInto_array _ _ _ []).
  - intros Hnil. rewrite createFilter_returns by done.
    eexists _, _. split; [reflexivity |]. split; [reflexivity |].
    rewrite Hnil. apply lookup_singleton_eq.
Qed.

(** C10: in every descriptor the helper returns for a caller-supplied
    query string object, the entries under keys other than [fields] and
    [expand] are the caller's, and either of these two keys is the
    caller's as well when the option of that name is falsy; the helper
    returns a descriptor whenever both list options can be consumed. *)
Theorem caller_qs_entries_kept this opts (path method : string)
    (body : JsVal) (qs0 : gmap string JsVal) :
  (∀ d,
     buildRequestOptions this opts path method body (Some qs0) = inr d →
     ∃ q,
       qs d = Some q
       ∧ (∀ k, k ≠ "fields" → k ≠ "expand" → q !! k = qs0 !! k)
       ∧ (truthy (get opts "fields") = false → q !! "fields" = qs0 !! "fields")
       ∧ (truthy (get opts "expand") = false → q !! "expand" = qs0 !! "expand"))
  ∧ (listOption (get opts "fields") = true →
     listOption (get opts "expand") = true →
     ∃ d, buildRequestOptions this opts path method body (Some qs0) = inr d).
Proof.
  split.
  - intros d Hd.
    destruct (listOption (get opts "fields") && listOption (get opts "expand"))
      eqn:Hlists.
    + apply andb_true_iff in Hlists as [Hf He].
      rewrite buildRequestOptions_returns in Hd by done.
      injection Hd as <-. eexists. split; [reflexivity |]. simpl.
      split; [| split].
      * intros k Hk1 Hk2. by rewrite !listInto_frame.
      * intros Hfalsy. rewrite listInto_frame by done.
        by rewrite listInto_falsy.
      * intros Hfalsy. rewrite (listInto_falsy opts "expand") by done.
        by rewrite listInto_frame.
    + by rewrite buildRequestOptions_throws in Hd.
  - intros Hf He. rewrite buildRequestOptions_returns by done. by eexists.
Qed.

End Operations.

(** ** Concrete runs *)

(** A truthy list option that is not an array: [(5).forEach] is not a
    function, and nothing is sent. *)
Example getFilter_fields_not_array :
  getFilter exampleClient {[ "filterId" := JNum 42; "fields" := JNum 5 ]} tt
  = inl TypeError.
Proof. reflexivity. Qed.

Example createFilter_sharedUsers :
  createFilter exampleClient
    {[ "filter" := JObj {[ "name" := JStr "f" ]};
       "expand" := JArr [JStr "sharedUsers"] ]} tt
  = inr (send exampleClient
           {| uri := "https://jira.example.com/rest/api/2/filter";
              method := "POST";
              json := true;
              followAllRedirects := true;
              qs := Some {[ "expand" := JStr "sharedUsers," ]};
              body := Some (JObj {[ "name" := JStr "f" ]}) |}
           tt None).
Proof. reflexivity. Qed.

Example setDefaultShareScope_global :
  setDefaultShareScope exampleClient {[ "scope" := JStr "GLOBAL" ]} tt
  = inr (send exampleClient
           {| uri := "https://jira.example.com/rest/api/2/filter/defaultShareScope";
              method := "PUT";
              json := true;
              followAllRedirects := true;
              qs := None;
              body := Some (JObj {[ "scope" := JStr "GLOBAL" ]}) |}
           tt None).
Proof. reflexivity. Qed.

(** Without [fields] and [expand] the query string object has neither
    key. *)
Example getFilter_no_list_options :
  ∃ o, getFilter exampleClient {[ "filterId" := JNum 42 ]} tt
       = inr (send exampleClient o tt None)
       ∧ qs o = Some ∅.
Proof. eexists. split; reflexivity. Qed.

(** At the list [["a"; ""]], which is non-empty and has no comma in any
    element, the helper stores ["a,"] under [fields]: the string ends with
    a comma and its last segment is empty. *)
Lemma list_parameter_empty_item_counterexample :
  ["a"; ""] ≠ ([] : list string)
  ∧ Forall noComma ["a"; ""]
  ∧ ∃ d q,
      buildRequestOptions exampleClient
        {[ "fields" := JArr (JStr <$> ["a"; ""]) ]} "" "GET" JUndefined None
      = inr d
      ∧ qs d = Some q
      ∧ q !! "fields" = Some (JStr "a,")
      ∧ split_on comma "a," = ["a"; ""]
      ∧ last_char "a," = Some comma
      ∧ "" ∈ split_on comma "a,".
Proof.
  split; [done |]. split; [by repeat constructor |].
  eexists _, _. split; [reflexivity |]. split; [reflexivity |].
  split; [reflexivity |]. split; [reflexivity |]. split; [reflexivity |].
  right. by left.
Qed.

Lemma list_parameter_roundtrip_witness :
  ∃ d q s,
    buildRequestOptions exampleClient
      {[ "fields" := JArr (JStr <$> ["id"; "name"]) ]} "" "GET" JUndefined None
    = inr d
    ∧ qs d = Some q
    ∧ q !! "fields" = Some (JStr s)
    ∧ split_on comma s = ["id"; "name"]
    ∧ first_char s ≠ Some comma
    ∧ last_char s ≠ Some comma
    ∧ "" ∉ split_on comma s.
Proof.
  destruct (list_parameter_roundtrip exampleClient
              {[ "fields" := JArr (JStr <$> ["id"; "name"]) ]}
              "" "GET" JUndefined None "fields" ["id"; "name"])
    as (d & q & s & Hd & Hq & Hs & Hsplit & Hclean).
  - by left.
  - done.
  - by repeat constructor.
  - reflexivity.
  - reflexivity.
  - reflexivity.
  - exists d, q, s. repeat (split; [assumption |]).
    apply Hclean. by repeat constructor.
Defined.

Lemma expand_trailing_comma_witness :
  (∃ d q,
     buildRequestOptions exampleClient
       {[ "expand" := JArr [JStr "sharedUsers"; JStr "subscriptions"] ]}
       "" "GET" JUndefined None = inr d
     ∧ qs d = Some q
     ∧ q !! "expand" = Some (JStr "sharedUsers,subscriptions"))
  ∧ (∃ o q,
       createFilter exampleClient
         {[ "expand" := JArr [JStr "sharedUsers"; JStr "subscriptions"] ]} tt
       = inr (send exampleClient o tt None)
       ∧ qs o = Some q
       ∧ q !! "expand" = Some (JStr "sharedUsers,subscriptions,")
       ∧ last_char "sharedUsers,subscriptions," = Some comma).
Proof.
  apply (expand_trailing_comma exampleClient
           {[ "expand" := JArr [JStr "sharedUsers"; JStr "subscriptions"] ]}
           tt "" "GET" JUndefined None
           [JStr "sharedUsers"; JStr "subscriptions"]).
  - done.
  - reflexivity.
  - reflexivity.
Defined.

Lemma getFilter_42_witness :
  ∃ o,
    getFilter exampleClient {[ "filterId" := JNum 42 ]} tt
    = inr (send exampleClient o tt None)
    ∧ uri o = "https://jira.example.com/rest/api/2/filter/42"
    ∧ ends_with (uri o) "/filter/42"
    ∧ method o = "GET"
    ∧ body o = Some (JObj ∅).
Proof.
  apply (getFilter_42 exampleClient tt).
  intros p. by exists "https://jira.example.com/rest/api/2".
Defined.

Lemma filter_columns_requests_witness :
  (∃ o,
     setFilterColumns exampleClient
       {[ "filterId" := JNum 7; "columns" := JArr [JStr "a"; JStr "b"] ]} tt
     = inr (send exampleClient o tt (Some "Columns Updated"))
     ∧ uri o = "https://jira.example.com/rest/api/2/filter/7/columns"
     ∧ method o = "PUT"
     ∧ body o = Some (JObj {[ "columns" := JArr [JStr "a"; JStr "b"] ]}))
  ∧ (∃ o,
       resetFilterColumns exampleClient
         {[ "filterId" := JNum 7; "columns" := JArr [JStr "a"; JStr "b"] ]} tt
       = inr (send exampleClient o tt (Some "Columns Reset"))
       ∧ uri o = "https://jira.example.com/rest/api/2/filter/7/columns"
       ∧ method o = "DELETE").
Proof.
  destruct (filter_columns_requests exampleClient
              {[ "filterId" := JNum 7; "columns" := JArr [JStr "a"; JStr "b"] ]}
              tt) as [[o1 H1] [o2 H2]]; [reflexivity | reflexivity |].
  split; [exists o1; exact H1 | exists o2; exact H2].
Defined.

(** [createFilter({})] sends a descriptor whose body is [undefined], and
    the descriptor of the default-share-scope getter has no body at all:
    neither is the empty object. *)
Lemma body_not_defaulted_counterexample :
  (∃ o,
     createFilter exampleClient ∅ tt = inr (send exampleClient o tt None)
     ∧ body o = Some JUndefined
     ∧ body o ≠ Some (JObj ∅))
  ∧ (∃ o,
       getDefaultShareScore exampleClient ∅ tt
       = inr (send exampleClient o tt None)
       ∧ body o = None
       ∧ body o ≠ Some (JObj ∅)).
Proof.
  split; eexists; (split; [reflexivity |]); by split.
Qed.

Lemma body_when_none_supplied_witness :
  (∃ o msg,
     resetFilterColumns exampleClient {[ "filterId" := JNum 7 ]} tt
     = inr (send exampleClient o tt msg)
     ∧ body o = Some (JObj ∅))
  ∧ (∃ o,
       updateFilter exampleClient {[ "filterId" := JNum 7 ]} tt
       = inr (send exampleClient o tt None)
       ∧ body o = Some (JObj ∅))
  ∧ (∃ o,
       createFilter exampleClient {[ "filterId" := JNum 7 ]} tt
       = inr (send exampleClient o tt None)
       ∧ body o = Some JUndefined).
Proof.
  destruct (body_when_none_supplied exampleClient {[ "filterId" := JNum 7 ]} tt)
    as (Hrouted & Hupdate & Hcreate & _); [reflexivity | reflexivity |].
  split; [| split].
  - apply (Hrouted "resetFilterColumns"). right. right. by left.
  - apply Hupdate. reflexivity.
  - apply Hcreate. reflexivity.
Defined.

Lemma follow_redirects_json_everywhere_witness :
  ∃ this' c,
    setFilterColumns exampleClient
      {[ "filterId" := JNum 7; "columns" := JArr [JStr "a"; JStr "b"] ]} tt
    = inr this'
    ∧ requests (jiraClient this') = requests (jiraClient exampleClient) ++ [c]
    ∧ followAllRedirects (options c) = true
    ∧ json (options c) = true.
Proof.
  assert (∃ r, setFilterColumns exampleClient
                 {[ "filterId" := JNum 7;
                    "columns" := JArr [JStr "a"; JStr "b"] ]} tt
               = inr r) as [r Hrun] by (eexists; reflexivity).
  destruct (proj1 follow_redirects_json_everywhere
              "setFilterColumns" setFilterColumns exampleClient
              {[ "filterId" := JNum 7; "columns" := JArr [JStr "a"; JStr "b"] ]}
              tt r) as [c Hc]; [| exact Hrun |].
  - unfold publicOperations. do 4 right. by left.
  - exists r, c. split; [exact Hrun | exact Hc].
Defined.

Lemma missing_filterId_not_rejected_witness :
  (∃ o msg,
     getFilterColumns exampleClient ∅ tt = inr (send exampleClient o tt msg)
     ∧ uri o = "https://jira.example.com/rest/api/2/filter/undefined/columns")
  ∧ (∃ this' c,
       createFilter exampleClient ∅ tt = inr this'
       ∧ requests (jiraClient this') = requests (jiraClient exampleClient) ++ [c]
       ∧ callback c = tt)
  ∧ (∃ r, getFilter exampleClient ∅ tt = inr r).
Proof.
  destruct (missing_filterId_not_rejected exampleClient ∅ tt)
    as [Hsend Hsame]; [reflexivity |].
  destruct Hsend as [Hrouted Hall]; [reflexivity | reflexivity |].
  split; [| split].
  - apply (Hrouted "getFilterColumns"). unfold routedOperations.
    do 2 right. by left.
  - apply (Hall "createFilter"). by left.
  - apply (Hsame "getFilter" getFilter (JNum 42)).
    + right. by left.
    + by eexists.
Defined.

Lemma empty_list_gives_empty_string_witness :
  (∃ d q,
     buildRequestOptions exampleClient
       {[ "filterId" := JNum 42; "fields" := JArr [] ]} "" "GET" JUndefined None
     = inr d
     ∧ qs d = Some q
     ∧ q !! "fields" = Some (JStr ""))
  ∧ (∃ o q,
       createFilter exampleClient {[ "expand" := JArr [] ]} tt
       = inr (send exampleClient o tt None)
       ∧ qs o = Some q
       ∧ q !! "expand" = Some (JStr "")).
Proof.
  split.
  - destruct (empty_list_gives_empty_string exampleClient
                {[ "filterId" := JNum 42; "fields" := JArr [] ]}
                tt "" "GET" JUndefined None) as [Hhelper _];
      [reflexivity | reflexivity |].
    apply (Hhelper "fields"); [by left | reflexivity].
  - destruct (empty_list_gives_empty_string exampleClient
                {[ "expand" := JArr [] ]}
                tt "" "GET" JUndefined None) as [_ Hcreate];
      [reflexivity | reflexivity |].
    apply Hcreate. reflexivity.
Defined.

Lemma caller_qs_entries_kept_witness :
  ∃ d q,
    buildRequestOptions exampleClient
      {[ "filterId" := JNum 42; "fields" := JArr [JStr "id"] ]}
      "" "GET" JUndefined
      (Some {[ "startAt" := JNum 10; "fields" := JStr "old" ]})
    = inr d
    ∧ qs d = Some q
    ∧ q !! "startAt" = Some (JNum 10)
    ∧ q !! "fields" = Some (JStr "id")
    ∧ q !! "expand" = None.
Proof.
  destruct (caller_qs_entries_kept exampleClient
              {[ "filterId" := JNum 42; "fields" := JArr [JStr "id"] ]}
              "" "GET" JUndefined
              {[ "startAt" := JNum 10; "fields" := JStr "old" ]})
    as [Hframe Hreturns].
  destruct Hreturns as [d Hd]; [reflexivity | reflexivity |].
  destruct (Hframe d Hd) as (q & Hq & Hother & _ & Hexpand).
  exists d, q. split; [exact Hd |]. split; [exact Hq |]. split; [| split].
  - by rewrite Hother.
  - assert ((inr d : Result Descriptor)
            = inr {| uri := "https://jira.example.com/rest/api/2/filter/42";
                     method := "GET"; json := true; followAllRedirects := true;
                     qs := Some {[ "startAt" := JNum 10;
                                   "fields" := JStr "id" ]};
                     body := Some (JObj ∅) |}) as Heq
      by (rewrite <- Hd; reflexivity).
    injection Heq as ->. by injection Hq as <-.
  - by rewrite Hexpand.
Defined.

(** * Further properties of the operations *)

Section Further.

Context {Callback : Type}.
Implicit Types (this : FilterClient Callback) (opts : gmap string JsVal).
Implicit Types (cb : Callback).

(** ** Shared facts *)

(** An operation that returns has made one call of [makeRequest], with the
    callback it was given. *)
Lemma public_operation_sends this opts cb (name : string)
    (op : Operation Callback) (this' : FilterClient Callback) :
  (name, op) ∈ publicOperations →
  op this opts cb = inr this' →
  ∃ o msg, this' = send this o cb msg.
Proof.
  assert (∀ path method body msg,
            (o <- buildRequestOptions this opts path method body None ;;
             ret (send this o cb msg)) = inr this' →
            ∃ o msg, this' = send this o cb msg) as Hrouted.
  { intros path method body msg Hrun.
    destruct (buildRequestOptions this opts path method body None)
      as [e | d]; [done |].
    injection Hrun as <-. by eexists _, _. }
  intros Hin Hrun. unfold publicOperations in Hin.
  repeat (apply elem_of_cons in Hin as [[= -> ->] | Hin]);
    try (by apply elem_of_nil in Hin);
    try (by eapply Hrouted);
    try (injection Hrun as <-; by eexists _, _).
  unfold createFilter in Hrun.
  destruct (if truthy (get opts "expand") then _ else _) as [e | q]; [done |].
  injection Hrun as <-. by eexists _, _.
Qed.

(** The request an operation has sent is read off the client it returns. *)
Lemma send_inj this (o o' : Descriptor) cb (msg msg' : option string) :
  inr (send this o cb msg) = (inr (send this o' cb msg')
                              : Result (FilterClient Callback)) →
  o = o' ∧ msg = msg'.
Proof.
  unfold send, makeRequest. intros [= Hreq].
  apply app_inv_head in Hreq. by injection Hreq as -> ->.
Qed.

(** The helper reads [opts] at [filterId], [fields] and [expand] only. *)
Lemma buildRequestOptions_ext this (opts1 opts2 : gmap string JsVal)
    (path method : string) (body : JsVal) (qs0 : option (gmap string JsVal)) :
  get opts1 "filterId" = get opts2 "filterId" →
  get opts1 "fields" = get opts2 "fields" →
  get opts1 "expand" = get opts2 "expand" →
  buildRequestOptions this opts1 path method body qs0
  = buildRequestOptions this opts2 path method body qs0.
Proof.
  intros Hid Hf He. unfold buildRequestOptions, joinTrimmed.
  by rewrite Hid, Hf, He.
Qed.

Lemma listInto_truthy_key (opts : gmap string JsVal) (key k : string)
    (q : gmap string JsVal) :
  listOption (get opts key) = true →
  is_Some (listInto opts key q !! k)
  ↔ (k = key ∧ truthy (get opts key) = true) ∨ is_Some (q !! k) ∧ k ≠ key
    ∨ (is_Some (q !! k) ∧ truthy (get opts key) = false).
Proof.
  intros [[l Hl] | Hfalsy]%listOption_cases.
  - unfold listInto. rewrite Hl. simpl. rewrite lookup_insert_is_Some.
    split.
    + intros [-> | [Hne Hq]]; [by left | right; left; by split].
    + intros [[-> _] | [[Hq Hne] | [_ ?]]]; [by left | | done].
      right. by split.
  - rewrite listInto_falsy by done. rewrite Hfalsy. split.
    + intros Hq. right. right. by split.
    + intros [[_ ?] | [[Hq _] | [Hq _]]]; done.
Qed.

(** ** Errors *)



(** ** What the requests depend on *)

(** An operation looks at no option besides the ones listed for it: two
    options objects that agree on those give the same outcome, be it the
    same request or the same exception.  In particular [createFilter] looks
    at neither [filterId] nor [fields], and the default-share-scope getter
    looks at nothing. *)
Theorem unread_options_ignored this (opts1 opts2 : gmap string JsVal) cb
    (name : string) (op : Operation Callback) :
  (name, op) ∈ publicOperations →
  (∀ k, k ∈ optionsRead name → get opts1 k = get opts2 k) →
  op this opts1 cb = op this opts2 cb.
Proof.
  intros Hin Hagree. unfold publicOperations in Hin.
  assert (∀ k, In k (optionsRead name) → get opts1 k = get opts2 k) as Hread
    by (intros k Hk; by apply Hagree, list_elem_of_In).
  clear Hagree.
  repeat (apply elem_of_cons in Hin as [[= -> ->] | Hin]);
    try (by apply elem_of_nil in Hin);
    cbv [optionsRead String.eqb Ascii.eqb Bool.eqb In] in Hread.
  - unfold createFilter.
    by rewrite (Hread "filter"), (Hread "expand") by tauto.
  - unfold getFilter.
    by rewrite (buildRequestOptions_ext this opts1 opts2)
      by (apply Hread; tauto).
  - unfold updateFilter. rewrite (Hread "filter") by tauto.
    by rewrite (buildRequestOptions_ext this opts1 opts2)
      by (apply Hread; tauto).
  - unfold getFilterColumns.
    by rewrite (buildRequestOptions_ext this opts1 opts2)
      by (apply Hread; tauto).
  - unfold setFilterColumns. rewrite (Hread "columns") by tauto.
    by rewrite (buildRequestOptions_ext this opts1 opts2)
      by (apply Hread; tauto).
  - unfold resetFilterColumns.
    by rewrite (buildRequestOptions_ext this opts1 opts2)
      by (apply Hread; tauto).
  - reflexivity.
  - unfold setDefaultShareScope. by rewrite (Hread "scope") by tauto.
Qed.

(** The query string object of a request holds a key exactly when it is a
    list option the operation walks and that option is truthy: for the
    operations that go through the helper, [fields] and [expand]; for
    [createFilter], [expand] alone.  No other option ever reaches the query
    string. *)
Theorem query_string_keys this opts cb (o : Descriptor) (msg : option string)
    (name : string) (op : Operation Callback) :
  (name, op) ∈ ("createFilter", createFilter (Callback := Callback))
               :: routedOperations →
  op this opts cb = inr (send this o cb msg) →
  ∃ q, qs o = Some q
       ∧ ∀ k, is_Some (q !! k)
              ↔ k ∈ listOptionsRead name ∧ truthy (get opts k) = true.
Proof.
  assert (∀ path method body msg',
            (d <- buildRequestOptions this opts path method body None ;;
             ret (send this d cb msg')) = inr (send this o cb msg) →
            ∃ q, qs o = Some q
                 ∧ ∀ k, is_Some (q !! k)
                        ↔ k ∈ ["fields"; "expand"] ∧ truthy (get opts k) = true)
    as Hrouted.
  { intros path method body msg' Hrun.
    destruct (listOption (get opts "fields") && listOption (get opts "expand"))
      eqn:Hlists;
      [| by rewrite buildRequestOptions_throws in Hrun].
    apply andb_true_iff in Hlists as [Hf He].
    rewrite buildRequestOptions_returns in Hrun by done.
    apply send_inj in Hrun as [<- _].
    eexists. split; [reflexivity |].
    intros k. simpl default.
    rewrite (listInto_truthy_key opts "expand") by done.
    rewrite (listInto_truthy_key opts "fields") by done.
    rewrite lookup_empty, !elem_of_cons, elem_of_nil.
    pose proof (@is_Some_None JsVal) as Hnone.
    split.
    - intros [[-> Ht] | [[[[-> Ht] | [[? _] | [? _]]] _]
                         | [[[-> Ht] | [[? _] | [? _]]] _]]];
        try done; auto.
    - intros [[-> | [-> | []]] Ht].
      + right. left. split; [| done]. left. by split.
      + left. by split. }
  intros Hin Hrun. unfold routedOperations in Hin.
  repeat (apply elem_of_cons in Hin as [[= -> ->] | Hin]);
    try (by apply elem_of_nil in Hin);
    try (by eapply Hrouted).
  change (listOptionsRead "createFilter") with ["expand"].
  destruct (listOption (get opts "expand")) eqn:He;
    [| by rewrite createFilter_throws in Hrun].
  rewrite createFilter_returns in Hrun by done.
  apply send_inj in Hrun as [<- _].
  eexists. split; [reflexivity |].
  intros k. rewrite list_elem_of_singleton.
  apply listOption_cases in He as [[l Hl] | Hfalsy].
  - rewrite Hl. rewrite lookup_singleton_is_Some. split.
    + intros <-. by rewrite Hl.
    + by intros [-> _].
  - assert (match get opts "expand" with
            | JArr l => ({[ "expand" := JStr (withTrailing l) ]}
                         : gmap string JsVal)
            | _ => ∅
            end = ∅) as -> by by destruct (get opts "expand").
    rewrite lookup_empty. split; [by intros [] |].
    intros [-> Ht]. congruence.
Qed.

(** ** The requests of the remaining operations *)

(** [getFilter] and [getFilterColumns] send a GET without success message
    for ['/filter/' + filterId], respectively
    ['/filter/' + filterId + '/columns'], with the empty object as body and
    the query string the helper built from nothing. *)
Theorem read_requests this opts cb :
  listOption (get opts "fields") = true →
  listOption (get opts "expand") = true →
  getFilter this opts cb
  = inr (send this
           {| uri := buildURL (jiraClient this)
                       ("/filter/" +:+ toString (get opts "filterId"));
              method := "GET";
              json := true;
              followAllRedirects := true;
              qs := Some (listInto opts "expand" (listInto opts "fields" ∅));
              body := Some (JObj ∅) |}
           cb None)
  ∧ getFilterColumns this opts cb
    = inr (send this
             {| uri := buildURL (jiraClient this)
                         ("/filter/" +:+ toString (get opts "filterId")
                          +:+ "/columns");
                method := "GET";
                json := true;
                followAllRedirects := true;
                qs := Some (listInto opts "expand" (listInto opts "fields" ∅));
                body := Some (JObj ∅) |}
             cb None).
Proof.
  intros Hf He. split.
  - unfold getFilter. rewrite buildRequestOptions_returns by done.
    by rewrite append_empty_r.
  - unfold getFilterColumns. by rewrite buildRequestOptions_returns by done.
Qed.

(** [updateFilter] sends a PUT for ['/filter/' + filterId] whose body is
    [opts.filter] when that is truthy and the empty object otherwise: a
    filter given as [null], [false], [0] or [''] is replaced like a
    missing one, so the body sent is always truthy. *)
Theorem updateFilter_request this opts cb :
  listOption (get opts "fields") = true →
  listOption (get opts "expand") = true →
  ∃ b,
    updateFilter this opts cb
    = inr (send this
             {| uri := buildURL (jiraClient this)
                         ("/filter/" +:+ toString (get opts "filterId"));
                method := "PUT";
                json := true;
                followAllRedirects := true;
                qs := Some (listInto opts "expand" (listInto opts "fields" ∅));
                body := Some b |}
             cb None)
    ∧ truthy b = true
    ∧ (truthy (get opts "filter") = true → b = get opts "filter")
    ∧ (truthy (get opts "filter") = false → b = JObj ∅).
Proof.
  intros Hf He. unfold updateFilter.
  rewrite buildRequestOptions_returns by done. rewrite append_empty_r.
  eexists. split; [reflexivity |].
  by destruct (truthy (get opts "filter")) eqn:Ht.
Qed.

(** [createFilter] sends a POST for ['/filter'] whose body is [opts.filter]
    as it was given, falsy or not, without success message; without a
    truthy [expand] its query string object is empty. *)
Theorem createFilter_request this opts cb :
  listOption (get opts "expand") = true →
  ∃ q,
    createFilter this opts cb
    = inr (send this
             {| uri := buildURL (jiraClient this) "/filter";
                method := "POST";
                json := true;
                followAllRedirects := true;
                qs := Some q;
                body := Some (get opts "filter") |}
             cb None)
    ∧ (truthy (get opts "expand") = false → q = ∅)
    ∧ (∀ l, get opts "expand" = JArr l →
            q = {[ "expand" := JStr (withTrailing l) ]}).
Proof.
  intros He. rewrite createFilter_returns by done.
  eexists. split; [reflexivity |]. split.
  - intros Hfalsy. by destruct (get opts "expand").
  - by intros l ->.
Qed.

(** ** The path and the identifier *)

(** The identifier is pasted into the path as it prints, unchecked and
    unencoded: [getFilter] with the identifier [s + '/columns'] does exactly
    what [getFilterColumns] does with the identifier [s]. *)
Theorem filterId_not_encoded this opts cb (s : string) :
  getFilter this (<["filterId" := JStr (s +:+ "/columns")]> opts) cb
  = getFilterColumns this (<["filterId" := JStr s]> opts) cb.
Proof.
  unfold getFilter, getFilterColumns, buildRequestOptions, joinTrimmed.
  rewrite !get_insert_eq. rewrite !get_insert_ne by done.
  unfold jsAdd. simpl toString.
  by rewrite append_empty_r.
Qed.




(** ** More on the list parameters *)

Lemma split_on_append_sep (c : ascii) (s t : string) :
  split_on c (s +:+ String c t) = split_on c s ++ split_on c t.
Proof.
  induction s as [|a s IH]; simpl.
  - by rewrite Ascii.eqb_refl.
  - rewrite IH. destruct (Ascii.eqb a c); [done |].
    pose proof (split_on_nonempty c s) as Hne.
    by destruct (split_on c s).
Qed.

Lemma split_on_concat_any (c : ascii) (L : list string) :
  L ≠ [] →
  split_on c (String.concat (String c "") L) = concat (split_on c <$> L).
Proof.
  induction L as [|x [|y r] IH]; intros Hne; [done | |].
  - simpl. by rewrite app_nil_r.
  - change (String.concat (String c "") (x :: y :: r))
      with (x +:+ String c (String.concat (String c "") (y :: r))).
    rewrite split_on_append_sep, IH by done. reflexivity.
Qed.

Lemma split_on_contains_length (c : ascii) (s : string) :
  contains c s = true → 2 ≤ length (split_on c s).
Proof.
  induction s as [|a s IH]; simpl; [done |].
  pose proof (split_on_nonempty c s) as Hne.
  destruct (Ascii.eqb a c); simpl.
  - intros _. destruct (split_on c s); [done | simpl; lia].
  - intros Hs. specialize (IH Hs).
    destruct (split_on c s); [done | exact IH].
Qed.

Lemma split_segments_length (c : ascii) (L : list string) :
  length L ≤ length (concat (split_on c <$> L))
  ∧ (Exists (fun x => contains c x = true) L →
     length L < length (concat (split_on c <$> L))).
Proof.
  induction L as [|x L [IHle IHlt]].
  - split; [simpl; lia |]. by intros ?%Exists_nil.
  - rewrite fmap_cons. change (concat (split_on c x :: (split_on c <$> L)))
      with (split_on c x ++ concat (split_on c <$> L)).
    rewrite length_app. simpl length.
    assert (1 ≤ length (split_on c x)) as Hx.
    { pose proof (split_on_nonempty c x). destruct (split_on c x);
        [done | simpl; lia]. }
    split; [lia |].
    intros [Hhere | Hlater]%Exists_cons.
    + apply split_on_contains_length in Hhere. lia.
    + specialize (IHlt Hlater). lia.
Qed.



(** Commas inside the items are not escaped: splitting the stored string
    gives, for a non-empty list of strings, the segments of the first item
    followed by those of the second and so on, so at least as many
    segments as items, and more than that as soon as one item holds a
    comma. *)
Theorem commas_in_items_not_escaped this opts (path method : string)
    (body : JsVal) (qs0 : option (gmap string JsVal))
    (key : string) (L : list string) :
  key = "fields" ∨ key = "expand" →
  L ≠ [] →
  get opts key = JArr (JStr <$> L) →
  listOption (get opts "fields") = true →
  listOption (get opts "expand") = true →
  ∃ d q s,
    buildRequestOptions this opts path method body qs0 = inr d
    ∧ qs d = Some q
    ∧ q !! key = Some (JStr s)
    ∧ split_on comma s = concat (split_on comma <$> L)
    ∧ length L ≤ length (split_on comma s)
    ∧ (Exists (fun x => contains comma x = true) L →
       length L < length (split_on comma s) ∧ split_on comma s ≠ L).
Proof.
  intros Hkey Hne Hl Hf He.
  rewrite buildRequestOptions_returns by done.
  assert (split_on comma (joined (JStr <$> L)) = concat (split_on comma <$> L))
    as Hsplit.
  { rewrite joined_strings. by apply (split_on_concat_any comma). }
  eexists _, _, (joined (JStr <$> L)).
  split; [reflexivity |]. split; [reflexivity |]. split.
  { destruct Hkey as [-> | ->].
    - rewrite listInto_frame by done. by apply listInto_array.
    - by apply listInto_array. }
  split; [exact Hsplit |]. rewrite Hsplit.
  destruct (split_segments_length comma L) as [Hle Hlt].
  split; [exact Hle |].
  intros Hcomma. specialize (Hlt Hcomma). split; [exact Hlt |].
  intros Heq. rewrite Heq in Hlt. lia.
Qed.

(** Two different non-empty lists of comma-free strings are stored as two
    different strings.  The empty list is left out for a reason: it is
    stored as the empty string, like the list whose only item is the empty
    string. *)
Theorem list_parameter_injective this (opts1 opts2 : gmap string JsVal)
    (path method : string) (body : JsVal) (qs0 : option (gmap string JsVal))
    (key : string) (L1 L2 : list string) (d1 d2 : Descriptor)
    (q1 q2 : gmap string JsVal) :
  key = "fields" ∨ key = "expand" →
  L1 ≠ [] → L2 ≠ [] →
  Forall noComma L1 → Forall noComma L2 →
  get opts1 key = JArr (JStr <$> L1) →
  get opts2 key = JArr (JStr <$> L2) →
  buildRequestOptions this opts1 path method body qs0 = inr d1 →
  buildRequestOptions this opts2 path method body qs0 = inr d2 →
  qs d1 = Some q1 → qs d2 = Some q2 →
  L1 ≠ L2 →
  q1 !! key ≠ q2 !! key.
Proof.
  intros Hkey Hne1 Hne2 Hc1 Hc2 Hl1 Hl2 Hd1 Hd2 Hq1 Hq2 Hdiff Hsame.
  apply Hdiff.
  assert (∀ opts d q L,
            get opts key = JArr (JStr <$> L) →
            buildRequestOptions this opts path method body qs0 = inr d →
            qs d = Some q →
            q !! key = Some (JStr (String.concat "," L))) as Hstored.
  { intros opts d q L Hl Hd Hq.
    destruct (listOption (get opts "fields") && listOption (get opts "expand"))
      eqn:Hlists;
      [| by rewrite buildRequestOptions_throws in Hd].
    apply andb_true_iff in Hlists as [Hf He].
    rewrite buildRequestOptions_returns in Hd by done.
    injection Hd as <-. injection Hq as <-.
    rewrite <- joined_strings.
    destruct Hkey as [-> | ->].
    - rewrite listInto_frame by done. by apply listInto_array.
    - by apply listInto_array. }
  rewrite (Hstored _ _ _ _ Hl1 Hd1 Hq1), (Hstored _ _ _ _ Hl2 Hd2 Hq2) in Hsame.
  injection Hsame as Hsame.
  rewrite <- (split_on_concat comma L1), <- (split_on_concat comma L2) by done.
  unfold comma. by rewrite Hsame.
Qed.

(** Handing the helper the query string object it returned changes
    nothing: it returns the same descriptor again. *)
Theorem helper_result_is_stable this opts (path method : string)
    (body : JsVal) (qs0 : option (gmap string JsVal))
    (d : Descriptor) :
  buildRequestOptions this opts path method body qs0 = inr d →
  buildRequestOptions this opts path method body (qs d) = inr d.
Proof.
  intros Hd.
  destruct (listOption (get opts "fields") && listOption (get opts "expand"))
    eqn:Hlists;
    [| by rewrite buildRequestOptions_throws in Hd].
  apply andb_true_iff in Hlists as [Hf He].
  rewrite buildRequestOptions_returns in Hd by done.
  rewrite buildRequestOptions_returns by done.
  injection Hd as <-. simpl.
  assert (∀ q : gmap string JsVal,
            listInto opts "expand"
              (listInto opts "fields"
                 (listInto opts "expand" (listInto opts "fields" q)))
            = listInto opts "expand" (listInto opts "fields" q)) as Hstable.
  { intros q. apply map_eq. intros k. unfold listInto.
    destruct (get opts "fields"), (get opts "expand"); try done;
      rewrite !lookup_insert; repeat case_decide; congruence. }
  by rewrite Hstable.
Qed.

(** ** Calls in sequence *)

(** After any sequence of calls of public operations that all return, the
    collaborator has received one request per call on top of the ones it
    had, in the order of the calls and each with the callback of its call;
    its [buildURL] is the one it started with. *)
Theorem calls_in_sequence
    (calls : list (Operation Callback * gmap string JsVal * Callback))
    this (this' : FilterClient Callback) :
  Forall (fun c => ∃ name, (name, c.1.1) ∈ publicOperations) calls →
  callAll calls this = inr this' →
  buildURL (jiraClient this') = buildURL (jiraClient this)
  ∧ ∃ new,
      requests (jiraClient this') = requests (jiraClient this) ++ new
      ∧ callback <$> new = snd <$> calls.
Proof.
  intros Hpublic. revert this.
  induction Hpublic as [|[[op opts] cb] calls [name Hop] Hrest IH];
    intros this Hrun.
  - injection Hrun as <-. split; [done |]. exists []. by rewrite app_nil_r.
  - simpl in Hrun, Hop.
    destruct (op this opts cb) as [e | this1] eqn:Hfirst; [done |].
    simpl in Hrun.
    destruct (public_operation_sends _ _ _ _ _ _ Hop Hfirst)
      as (o & msg & ->).
    destruct (IH _ Hrun) as (Hurl & new & Hnew & Hcbs).
    split; [by rewrite Hurl |].
    exists (mkCall o cb msg :: new). split.
    + rewrite Hnew. simpl. by rewrite <- app_assoc.
    + rewrite !fmap_cons. by rewrite Hcbs.
Qed.

End Further.

(** ** Concrete runs of the further properties *)


Lemma unread_options_ignored_witness :
  getFilter exampleClient
    {[ "filterId" := JNum 42; "maxResults" := JNum 50 ]} tt
  = getFilter exampleClient {[ "filterId" := JNum 42 ]} tt.
Proof.
  apply (unread_options_ignored exampleClient
           {[ "filterId" := JNum 42; "maxResults" := JNum 50 ]}
           {[ "filterId" := JNum 42 ]} tt "getFilter" getFilter).
  - right. by left.
  - intros k Hk.
    repeat (apply elem_of_cons in Hk as [-> | Hk]); try reflexivity.
    by apply elem_of_nil in Hk.
Defined.

Lemma query_string_keys_witness :
  ∃ q : gmap string JsVal,
    q = {[ "fields" := JStr "id,name" ]}
    ∧ ∀ k, is_Some (q !! k)
           ↔ k ∈ ["fields"; "expand"]
             ∧ truthy (get {[ "filterId" := JNum 42;
                              "fields" := JArr [JStr "id"; JStr "name"];
                              "expand" := JNull ]} k) = true.
Proof.
  destruct (query_string_keys exampleClient
              {[ "filterId" := JNum 42;
                 "fields" := JArr [JStr "id"; JStr "name"];
                 "expand" := JNull ]} tt
              {| uri := "https://jira.example.com/rest/api/2/filter/42";
                 method := "GET";
                 json := true;
                 followAllRedirects := true;
                 qs := Some {[ "fields" := JStr "id,name" ]};
                 body := Some (JObj ∅) |}
              None "getFilter" getFilter) as (q & Hq & Hkeys).
  - right. by left.
  - reflexivity.
  - exists q. split; [by injection Hq as <- | exact Hkeys].
Defined.

Lemma read_requests_witness :
  getFilter exampleClient {[ "filterId" := JNum 42 ]} tt
  = inr (send exampleClient
           {| uri := "https://jira.example.com/rest/api/2/filter/42";
              method := "GET";
              json := true;
              followAllRedirects := true;
              qs := Some ∅;
              body := Some (JObj ∅) |}
           tt None)
  ∧ getFilterColumns exampleClient {[ "filterId" := JNum 42 ]} tt
    = inr (send exampleClient
             {| uri := "https://jira.example.com/rest/api/2/filter/42/columns";
                method := "GET";
                json := true;
                followAllRedirects := true;
                qs := Some ∅;
                body := Some (JObj ∅) |}
             tt None).
Proof.
  destruct (read_requests exampleClient {[ "filterId" := JNum 42 ]} tt)
    as [Hget Hcolumns]; [reflexivity | reflexivity |].
  split; [exact Hget | exact Hcolumns].
Defined.

Lemma updateFilter_request_witness :
  ∃ b,
    updateFilter exampleClient
      {[ "filterId" := JNum 42; "filter" := JNum 0 ]} tt
    = inr (send exampleClient
             {| uri := "https://jira.example.com/rest/api/2/filter/42";
                method := "PUT";
                json := true;
                followAllRedirects := true;
                qs := Some ∅;
                body := Some b |}
             tt None)
    ∧ b = JObj ∅.
Proof.
  destruct (updateFilter_request exampleClient
              {[ "filterId" := JNum 42; "filter" := JNum 0 ]} tt)
    as (b & Hrun & _ & _ & Hfalsy); [reflexivity | reflexivity |].
  exists b. split; [exact Hrun | by apply Hfalsy].
Defined.

Lemma createFilter_request_witness :
  ∃ q,
    createFilter exampleClient {[ "filter" := JNull ]} tt
    = inr (send exampleClient
             {| uri := "https://jira.example.com/rest/api/2/filter";
                method := "POST";
                json := true;
                followAllRedirects := true;
                qs := Some q;
                body := Some JNull |}
             tt None)
    ∧ q = ∅.
Proof.
  destruct (createFilter_request exampleClient {[ "filter" := JNull ]} tt)
    as (q & Hrun & Hempty & _); [reflexivity |].
  exists q. split; [exact Hrun | by apply Hempty].
Defined.



Lemma commas_in_items_not_escaped_witness :
  ∃ d q s,
    buildRequestOptions exampleClient
      {[ "fields" := JArr (JStr <$> ["a,b"; "c"]) ]} "" "GET" JUndefined None
    = inr d
    ∧ qs d = Some q
    ∧ q !! "fields" = Some (JStr s)
    ∧ split_on comma s = ["a"; "b"; "c"]
    ∧ split_on comma s ≠ ["a,b"; "c"].
Proof.
  destruct (commas_in_items_not_escaped exampleClient
              {[ "fields" := JArr (JStr <$> ["a,b"; "c"]) ]}
              "" "GET" JUndefined None "fields" ["a,b"; "c"])
    as (d & q & s & Hd & Hq & Hs & Hsplit & _ & Hmore).
  - by left.
  - done.
  - reflexivity.
  - reflexivity.
  - reflexivity.
  - exists d, q, s. repeat (split; [assumption |]).
    apply Hmore. by left.
Defined.

Lemma list_parameter_injective_witness :
  ({[ "expand" := JStr "sharedUsers" ]} : gmap string JsVal) !! "expand"
  ≠ ({[ "expand" := JStr "sharedUsers,subscriptions" ]} : gmap string JsVal)
    !! "expand".
Proof.
  apply (list_parameter_injective exampleClient
           {[ "expand" := JArr (JStr <$> ["sharedUsers"]) ]}
           {[ "expand" := JArr (JStr <$> ["sharedUsers"; "subscriptions"]) ]}
           "" "GET" JUndefined None "expand"
           ["sharedUsers"] ["sharedUsers"; "subscriptions"]
           {| uri := "https://jira.example.com/rest/api/2/filter/undefined";
              method := "GET";
              json := true;
              followAllRedirects := true;
              qs := Some {[ "expand" := JStr "sharedUsers" ]};
              body := Some (JObj ∅) |}
           {| uri := "https://jira.example.com/rest/api/2/filter/undefined";
              method := "GET";
              json := true;
              followAllRedirects := true;
              qs := Some {[ "expand" := JStr "sharedUsers,subscriptions" ]};
              body := Some (JObj ∅) |}).
  - by right.
  - done.
  - done.
  - by repeat constructor.
  - by repeat constructor.
  - reflexivity.
  - reflexivity.
  - reflexivity.
  - reflexivity.
  - reflexivity.
  - reflexivity.
  - done.
Defined.

Lemma helper_result_is_stable_witness :
  ∃ d,
    buildRequestOptions exampleClient
      {[ "filterId" := JNum 42; "fields" := JArr [JStr "id"; JStr "name"] ]}
      "" "GET" JUndefined (Some {[ "startAt" := JNum 10 ]})
    = inr d
    ∧ buildRequestOptions exampleClient
        {[ "filterId" := JNum 42; "fields" := JArr [JStr "id"; JStr "name"] ]}
        "" "GET" JUndefined (qs d)
      = inr d.
Proof.
  eexists. split; [reflexivity |].
  apply (helper_result_is_stable exampleClient
           {[ "filterId" := JNum 42;
              "fields" := JArr [JStr "id"; JStr "name"] ]}
           "" "GET" JUndefined (Some {[ "startAt" := JNum 10 ]})).
  reflexivity.
Defined.

Lemma calls_in_sequence_witness :
  ∃ this' new,
    callAll [ (createFilter, {[ "filter" := JObj ∅ ]}, 1);
              (getFilter, {[ "filterId" := JNum 42 ]}, 2);
              (resetFilterColumns, {[ "filterId" := JNum 42 ]}, 3) ]
      {| jiraClient := {| buildURL := fun p => "https://jira.example.com" +:+ p;
                          requests := [] |} |}
    = inr this'
    ∧ requests (jiraClient this') = [] ++ new
    ∧ callback <$> new = [1; 2; 3].
Proof.
  eexists.
  match goal with
  | |- ∃ new, ?run = inr ?t ∧ _ =>
      assert (run = inr t) as Hrun by reflexivity
  end.
  match type of Hrun with
  | callAll ?calls _ = _ =>
      assert (Forall (fun c => ∃ name, (name, c.1.1) ∈ publicOperations) calls)
        as Hpublic
  end.
  { repeat apply Forall_cons_2; [| | | apply Forall_nil_2]; simpl.
    - exists "createFilter". by left.
    - exists "getFilter". right. by left.
    - exists "resetFilterColumns". do 5 right. by left. }
  destruct (calls_in_sequence _ _ _ Hpublic Hrun) as (_ & new & Hnew & Hcbs).
  exists new. split; [exact Hrun |]. split; [exact Hnew | exact Hcbs].
Defined.
